(** * ai-crawler: a shallow embedding of the orchestration core

    The development follows the layout of the Python sources:
    - [pystring]                 Python [str] values and the string methods used
    - [base]                     backend/app/crawlers/base.py
    - [re]                       the fragment of Python's regular expressions
    - [requests_engine]          backend/app/crawlers/requests_engine.py
    - [multi_engine]             backend/app/crawlers/multi_engine.py
    - [natural_language_parser]  backend/app/utils/natural_language_parser.py
    - [text_processor]           backend/app/utils/text_processor.py
    - [routes]                   backend/app/api/routes.py

    Definitions come first, module by module; the theorems about them
    follow in the second half of the file. *)

From Stdlib Require Import String Ascii NArith ZArith QArith List Bool Lia.
From stdpp Require Import gmap strings list.
Import ListNotations.
Open Scope Z_scope.

(* ===================================================================== *)
(** * Python strings *)
(* ===================================================================== *)

Module pystring.

(** A Python [str] is a sequence of Unicode code points. *)
Definition pystr := list N.

(** Decoding of a UTF-8 byte sequence, so that literals of the sources can
    be written down as they appear there. *)
Fixpoint utf8 (bs : list N) : pystr :=
  match bs with
  | [] => []
  | b0 :: r0 =>
    if (b0 <? 128)%N then b0 :: utf8 r0
    else match r0 with
    | [] => [b0]
    | b1 :: r1 =>
      if (b0 <? 224)%N then ((b0 - 192) * 64 + (b1 - 128))%N :: utf8 r1
      else match r1 with
      | [] => [b0]
      | b2 :: r2 =>
        if (b0 <? 240)%N
        then ((b0 - 224) * 4096 + (b1 - 128) * 64 + (b2 - 128))%N :: utf8 r2
        else match r2 with
        | [] => [b0]
        | b3 :: r3 =>
          ((b0 - 240) * 262144 + (b1 - 128) * 4096
           + (b2 - 128) * 64 + (b3 - 128))%N :: utf8 r3
        end
      end
    end
  end.

Definition py (s : string) : pystr :=
  utf8 (map (fun b => N_of_ascii (ascii_of_byte b)) (list_byte_of_string s)).

Definition str_eqb (a b : pystr) : bool := bool_decide (a = b).

(** [s.startswith(p)] *)
Fixpoint startswith (p s : pystr) : bool :=
  match p, s with
  | [], _ => true
  | _ :: _, [] => false
  | a :: p', b :: s' => (a =? b)%N && startswith p' s'
  end.

(** [p in s] for two strings: [p] occurs in [s] as a contiguous run. *)
Fixpoint str_in (p s : pystr) : bool :=
  startswith p s ||
  match s with
  | [] => false
  | _ :: s' => str_in p s'
  end.

(** Unicode white space: the characters for which [str.isspace()] holds;
    the class [\s] of a [str] pattern and [str.strip()] use the same set. *)
Definition is_space (c : N) : bool :=
  (((9 <=? c) && (c <=? 13)) || ((28 <=? c) && (c <=? 32))
   || (c =? 133) || (c =? 160) || (c =? 5760)
   || ((8192 <=? c) && (c <=? 8202))
   || (c =? 8232) || (c =? 8233) || (c =? 8239) || (c =? 8287)
   || (c =? 12288))%N.

Fixpoint lstrip (s : pystr) : pystr :=
  match s with
  | [] => []
  | c :: s' => if is_space c then lstrip s' else s
  end.

(** [s.strip()] *)
Definition strip (s : pystr) : pystr := rev (lstrip (rev (lstrip s))).

(** [s.split(sep)] for a separator of one character: the pieces between
    the occurrences of [sep]; there is always at least one piece. *)
Fixpoint split (sep : N) (s : pystr) : list pystr :=
  match s with
  | [] => [[]]
  | c :: s' =>
    if (c =? sep)%N then [] :: split sep s'
    else match split sep s' with
         | [] => [[c]]
         | piece :: pieces => (c :: piece) :: pieces
         end
  end.

(** [sep.join(pieces)] *)
Fixpoint join (sep : pystr) (pieces : list pystr) : pystr :=
  match pieces with
  | [] => []
  | [p] => p
  | p :: pieces' => p ++ sep ++ join sep pieces'
  end.

(** The part of the Unicode character database that the sources consult
    through [str.lower()] and through the regex class [\d].  The database
    is not part of the repository, so the development is parametric in
    it. *)
Class Unicode := {
  str_lower : pystr -> pystr;
  is_decimal : N -> bool
}.

(** The restriction of the database to ASCII: it agrees with Python on
    every string made of ASCII characters, and is used to run examples. *)
Definition lower_ascii_char (c : N) : N :=
  if ((65 <=? c) && (c <=? 90))%N then (c + 32)%N else c.

Definition ascii_unicode : Unicode :=
  {| str_lower := map lower_ascii_char;
     is_decimal := fun c => ((48 <=? c) && (c <=? 57))%N |}.

(** Digits of a non-negative integer, as [str(n)] prints them. *)
Fixpoint digits_fuel (fuel : nat) (n : N) (acc : pystr) : pystr :=
  match fuel with
  | O => acc
  | S f =>
    let acc' := (48 + n mod 10)%N :: acc in
    if (n <? 10)%N then acc' else digits_fuel f (n / 10)%N acc'
  end.

Definition str_of_N (n : N) : pystr := digits_fuel (S (N.to_nat (N.log2 n))) n [].

Definition str_of_Z (z : Z) : pystr :=
  if z <? 0 then 45%N :: str_of_N (Z.to_N (- z)) else str_of_N (Z.to_N z).

End pystring.
Export pystring.

(** Python values that are stored in the open [metadata] and [hierarchy]
    dictionaries. Floats are modelled by exact rationals. *)
#[warnings="-register-all"]
Inductive pyval :=
| VNone
| VBool (b : bool)
| VInt (z : Z)
| VFloat (q : Q)
| VStr (s : pystr)
| VStrList (l : list pystr)
| VDict (d : list (pystr * pyval)).

(** The outcome of a Python call: a value, or a raised [Exception] that
    is represented by its [str(e)]. *)
Inductive pyres (A : Type) :=
| Ret (a : A)
| Exc (msg : pystr).
Arguments Ret {A} a.
Arguments Exc {A} msg.

(* ===================================================================== *)
(** * backend/app/crawlers/base.py *)
(* ===================================================================== *)

Module base.

Record CrawlResult := mkCrawlResult {
  url : pystr;
  title : pystr;
  text : pystr;
  hierarchy : gmap pystr pyval;
  metadata : gmap pystr pyval;
  status : pystr;
  timestamp : Z;
  error : option pystr
}.

Record CrawlStrategy := mkCrawlStrategy {
  engine_priority : list pystr;
  timeout : Z;
  max_retries : Z;
  wait_time : Q;
  extract_images : bool;
  extract_links : bool;
  custom_selectors : gmap pystr pystr;
  anti_bot_mode : bool;
  activity_timeout : Z;
  max_total_time : Z
}.

(** The dataclass defaults of [CrawlStrategy]. *)
Definition CrawlStrategy_default (engine_priority : list pystr) : CrawlStrategy :=
  {| engine_priority := engine_priority;
     timeout := 30;
     max_retries := 3;
     wait_time := 1;
     extract_images := false;
     extract_links := true;
     custom_selectors := ∅;
     anti_bot_mode := false;
     activity_timeout := 15;
     max_total_time := 300 |}.

(** [BaseCrawler.stats] *)
Record Stats := mkStats {
  total_requests : Z;
  successful_requests : Z;
  failed_requests : Z;
  avg_response_time : Q
}.

Definition Stats_init : Stats :=
  {| total_requests := 0; successful_requests := 0;
     failed_requests := 0; avg_response_time := 0 |}.

(** What one call of the abstract method [crawl] does: it returns a
    result after [elapsed] seconds of the event-loop clock, or raises. *)
Inductive crawl_outcome :=
| Returns (r : CrawlResult) (elapsed : Q)
| Raises (e : pystr).

(** An engine adapter. [crawl] is abstract in [BaseCrawler]; an adapter is
    described by what its successive calls do: [behaviour k url strategy]
    is the outcome of the call number [k] (counted from 0) on this
    adapter, and [calls] counts the calls made so far. *)
Record BaseCrawler := mkBaseCrawler {
  name : pystr;
  stats : Stats;
  calls : nat;
  behaviour : nat -> pystr -> CrawlStrategy -> crawl_outcome
}.

(** Observable actions of [crawl_with_retry]. *)
Inductive event :=
| EvCrawl (engine : pystr) (attempt : Z)
| EvSleep (seconds : Q).

Definition _update_stats (self : BaseCrawler) (success : bool) (response_time : Q)
  : BaseCrawler :=
  let st := stats self in
  let total := total_requests st + 1 in
  let current_avg := avg_response_time st in
  {| name := name self;
     stats :=
       {| total_requests := total;
          successful_requests :=
            if success then successful_requests st + 1 else successful_requests st;
          failed_requests :=
            if success then failed_requests st else failed_requests st + 1;
          avg_response_time :=
            ((current_avg * inject_Z (total - 1)) + response_time) / inject_Z total |};
     calls := calls self;
     behaviour := behaviour self |}.

(** [await self.crawl(url, strategy)] *)
Definition crawl (self : BaseCrawler) (url : pystr) (strategy : CrawlStrategy)
  : crawl_outcome * BaseCrawler :=
  (behaviour self (calls self) url strategy,
   {| name := name self; stats := stats self;
      calls := S (calls self); behaviour := behaviour self |}).

Definition permanent_errors : list pystr :=
  [ py "404"; py "not found";
    py "403"; py "forbidden";
    py "dns"; py "name resolution failed";
    py "connection refused";
    py "invalid url"; py "malformed url";
    py "ssl certificate"; py "certificate verify failed" ].

(** [any(err in error_msg for err in permanent_errors)] *)
Definition is_permanent (error_msg : pystr) : bool :=
  existsb (fun err => str_in err error_msg) permanent_errors.

(** How the [for attempt in range(max_retries)] loop is left. *)
Inductive loop_exit :=
| Returned (result : CrawlResult)
| Fell_through (last_error : option pystr).

(** [str(last_error)] *)
Definition str_of_last_error (last_error : option pystr) : pystr :=
  match last_error with
  | None => py "None"
  | Some e => e
  end.

(** The result that [crawl_with_retry] builds when no attempt has
    returned a result; [now] is the value of [datetime.now()]. *)
Definition failed_result (now : Z) (self : BaseCrawler) (url : pystr)
    (last_error : option pystr) : CrawlResult :=
  {| url := url;
     title := [];
     text := [];
     hierarchy := ∅;
     metadata :=
       <[py "error" := VStr (str_of_last_error last_error)]>
         {[ py "crawler_used" := VStr (name self) ]};
     status := py "failed";
     timestamp := now;
     error := Some (str_of_last_error last_error) |}.

Section retry.
Context `{Unicode}.

(** The loop of [crawl_with_retry]; [todo] is the number of values that
    [range(max_retries)] still has to produce and [attempt] the next one. *)
Fixpoint retry_loop (url : pystr) (strategy : CrawlStrategy)
    (todo : nat) (attempt : Z)
    (self : BaseCrawler) (last_error : option pystr) (log : list event)
  : loop_exit * BaseCrawler * list event :=
  match todo with
  | O => (Fell_through last_error, self, log)
  | S todo' =>
    let '(outcome, self1) := crawl self url strategy in
    let log1 := log ++ [EvCrawl (name self) attempt] in
    match outcome with
    | Returns result elapsed =>
        (Returned result, _update_stats self1 true elapsed, log1)
    | Raises e =>
        let error_msg := str_lower e in
        if is_permanent error_msg then
          (Fell_through (Some e), self1, log1)
        else if attempt <? max_retries strategy - 1 then
          let wait := (wait_time strategy * inject_Z (2 ^ attempt))%Q in
          retry_loop url strategy todo' (attempt + 1) self1 (Some e)
                     (log1 ++ [EvSleep wait])
        else
          retry_loop url strategy todo' (attempt + 1) self1 (Some e) log1
    end
  end.

(** [crawl_with_retry] *)
Definition crawl_with_retry (now : Z) (self : BaseCrawler)
    (url : pystr) (strategy : CrawlStrategy)
  : pyres CrawlResult * BaseCrawler * list event :=
  match retry_loop url strategy (Z.to_nat (max_retries strategy)) 0 self None [] with
  | (Returned result, self', log) => (Ret result, self', log)
  | (Fell_through last_error, self', log) =>
      (Ret (failed_result now self url last_error),
       _update_stats self' false 0,
       log)
  end.

End retry.

End base.

(* ===================================================================== *)
(** * The part of Python's [re] module that the sources use *)
(* ===================================================================== *)

Module re.

Record flags := mkFlags {
  IGNORECASE : bool;
  MULTILINE : bool;
  DOTALL : bool
}.

Definition no_flags : flags :=
  {| IGNORECASE := false; MULTILINE := false; DOTALL := false |}.

(** Members of a character class [[...]]. *)
Inductive cset_item :=
| Chr (c : N)
| Rng (lo hi : N)
| Space            (* \s *)
| Digit.           (* \d *)

Inductive regex :=
| Eps
| Lit (c : N)
| Any                                              (* .        *)
| Set_ (items : list cset_item)                    (* [...]    *)
| NSet (items : list cset_item)                    (* [^...]   *)
| Bol                                              (* ^        *)
| Eol                                              (* $        *)
| Seq (r1 r2 : regex)
| Alt (r1 r2 : regex)                              (* r1|r2    *)
| Rep (r : regex) (min : nat) (max : option nat) (greedy : bool)
| Group (n : nat) (r : regex)                      (* (...)    *)
| Ahead (r : regex).                               (* (?=...)  *)

(** A literal run of characters. *)
Fixpoint Str (s : pystr) : regex :=
  match s with
  | [] => Eps
  | [c] => Lit c
  | c :: s' => Seq (Lit c) (Str s')
  end.

(** A concatenation. *)
Fixpoint Cat (rs : list regex) : regex :=
  match rs with
  | [] => Eps
  | [r] => r
  | r :: rs' => Seq r (Cat rs')
  end.

Definition Star (r : regex) : regex := Rep r 0 None true.        (* r*   *)
Definition Plus (r : regex) : regex := Rep r 1 None true.        (* r+   *)
Definition Opt (r : regex) : regex := Rep r 0 (Some 1%nat) true. (* r?   *)
Definition StarLazy (r : regex) : regex := Rep r 0 None false.   (* r*?  *)
Definition PlusLazy (r : regex) : regex := Rep r 1 None false.   (* r+?  *)
Definition AtLeast (n : nat) (r : regex) : regex := Rep r n None true.  (* r{n,} *)

(** The characters that match [c] when case is ignored. The table covers
    the cased characters that occur in the patterns of the repository:
    the ASCII letters (with the four non-ASCII letters that Python
    equates with [i], [s] and [k]) and the circled letter c. *)
Definition case_class (c : N) : list N :=
  let l := if ((65 <=? c) && (c <=? 90))%N then (c + 32)%N else c in
  let l := if ((l =? 304) || (l =? 305))%N then 105%N
           else if (l =? 383)%N then 115%N
           else if (l =? 8490)%N then 107%N
           else if (l =? 9400)%N then 9426%N
           else l in
  if ((97 <=? l) && (l <=? 122))%N then
    [l; (l - 32)%N] ++
    (if (l =? 105)%N then [304%N; 305%N]
     else if (l =? 115)%N then [383%N]
     else if (l =? 107)%N then [8490%N]
     else [])
  else if (l =? 9426)%N then [9426%N; 9400%N]
  else [l].

Record mstate := mkState {
  before : pystr;                 (* the text already passed, reversed *)
  rest : pystr;                   (* the text still ahead *)
  groups : list (nat * pystr)     (* the groups captured so far *)
}.

Definition advance (c : N) (s' : pystr) (st : mstate) : mstate :=
  {| before := c :: before st; rest := s'; groups := groups st |}.

(** The text consumed between [st] and a later state [st']. *)
Definition consumed (st st' : mstate) : pystr :=
  rev (firstn (length (before st') - length (before st)) (before st')).

Definition set_group (n : nat) (st st' : mstate) : mstate :=
  {| before := before st'; rest := rest st';
     groups := (n, consumed st st') :: groups st' |}.

Section matching.
Context `{Unicode}.
Variable fl : flags.

Definition lit_ok (p c : N) : bool :=
  if IGNORECASE fl then existsb (N.eqb c) (case_class p) else (p =? c)%N.

Definition item_ok (c : N) (it : cset_item) : bool :=
  match it with
  | Chr p => lit_ok p c
  | Rng lo hi =>
      if IGNORECASE fl
      then existsb (fun c' => (lo <=? c') && (c' <=? hi))%N (case_class c)
      else ((lo <=? c) && (c <=? hi))%N
  | Space => is_space c
  | Digit => is_decimal c
  end.

Definition at_bol (st : mstate) : bool :=
  match before st with
  | [] => true
  | c :: _ => MULTILINE fl && (c =? 10)%N
  end.

Definition at_eol (st : mstate) : bool :=
  match rest st with
  | [] => true
  | c :: s' =>
      (c =? 10)%N && (MULTILINE fl || match s' with [] => true | _ => false end)
  end.

(** One character that satisfies [ok]. *)
Definition step (ok : N -> bool) (st : mstate) : list mstate :=
  match rest st with
  | c :: s' => if ok c then [advance c s' st] else []
  | [] => []
  end.

(** Repetition of a body [body] between [min] and [max] times; [fuel]
    bounds the number of further iterations, each of which has to consume
    at least one character. The results are listed in the order in which
    a backtracking matcher tries them. *)
Fixpoint rep_loop (body : mstate -> list mstate)
    (min : nat) (max : option nat) (greedy : bool)
    (fuel : nat) (count : nat) (st : mstate) : list mstate :=
  let stop := if (min <=? count)%nat then [st] else [] in
  match fuel with
  | O => stop
  | S fuel' =>
    let again :=
      if match max with Some mx => (count <? mx)%nat | None => true end
      then flat_map
             (fun st' =>
                if (length (rest st') <? length (rest st))%nat
                then rep_loop body min max greedy fuel' (S count) st'
                else [])
             (body st)
      else [] in
    if greedy then again ++ stop else stop ++ again
  end.

(** All the ways in which [r] matches at [st], most preferred first. *)
Fixpoint ms (r : regex) (st : mstate) : list mstate :=
  match r with
  | Eps => [st]
  | Lit p => step (lit_ok p) st
  | Any => step (fun c => DOTALL fl || negb (c =? 10)%N) st
  | Set_ items => step (fun c => existsb (item_ok c) items) st
  | NSet items => step (fun c => negb (existsb (item_ok c) items)) st
  | Bol => if at_bol st then [st] else []
  | Eol => if at_eol st then [st] else []
  | Seq r1 r2 => flat_map (ms r2) (ms r1 st)
  | Alt r1 r2 => ms r1 st ++ ms r2 st
  | Rep r' min max greedy =>
      rep_loop (ms r') min max greedy (length (rest st)) 0 st
  | Group n r' => map (set_group n st) (ms r' st)
  | Ahead r' => match ms r' st with [] => [] | _ :: _ => [st] end
  end.

(** The leftmost match at or after the position [(before, rest)]:
    the state where it starts and the state where it ends. *)
Fixpoint search_from (r : regex) (before rest : pystr) : option (mstate * mstate) :=
  let st := {| before := before; rest := rest; groups := [] |} in
  match ms r st with
  | m :: _ => Some (st, m)
  | [] =>
    match rest with
    | [] => None
    | c :: rest' => search_from r (c :: before) rest'
    end
  end.

(** [re.search(r, s)] *)
Definition search (r : regex) (s : pystr) : option (mstate * mstate) :=
  search_from r [] s.

(** [re.match(r, s)] *)
Definition match_ (r : regex) (s : pystr) : option mstate :=
  head (ms r {| before := []; rest := s; groups := [] |}).

(** [m.group(n)] *)
Definition group (n : nat) (m : mstate) : pystr :=
  match find (fun g => (fst g =? n)%nat) (groups m) with
  | Some g => snd g
  | None => []
  end.

(** A replacement template: literal text and group references. *)
Inductive tpl_item :=
| TLit (s : pystr)
| TGroup (n : nat).

Definition expand (tpl : list tpl_item) (m : mstate) : pystr :=
  flat_map (fun it => match it with TLit s => s | TGroup n => group n m end) tpl.

(** The scan of [re.sub]: non-overlapping matches from left to right; an
    empty match is replaced and the scan moves on by one character. *)
Fixpoint sub_from (r : regex) (tpl : list tpl_item)
    (fuel : nat) (before rest : pystr) : pystr :=
  match fuel with
  | O => rest
  | S fuel' =>
    let st := {| before := before; rest := rest; groups := [] |} in
    match ms r st with
    | m :: _ =>
        if (length (re.rest m) <? length rest)%nat
        then expand tpl m ++ sub_from r tpl fuel' (re.before m) (re.rest m)
        else match rest with
             | [] => expand tpl m
             | c :: rest' => expand tpl m ++ c :: sub_from r tpl fuel' (c :: before) rest'
             end
    | [] =>
        match rest with
        | [] => []
        | c :: rest' => c :: sub_from r tpl fuel' (c :: before) rest'
        end
    end
  end.

(** [re.sub(r, tpl, s)] *)
Definition sub (r : regex) (tpl : list tpl_item) (s : pystr) : pystr :=
  sub_from r tpl (S (length s)) [] s.

(** The scan of [findall] for a pattern without capturing groups. *)
Fixpoint findall_from (r : regex) (fuel : nat) (before rest : pystr) : list pystr :=
  match fuel with
  | O => []
  | S fuel' =>
    let st := {| before := before; rest := rest; groups := [] |} in
    match ms r st with
    | m :: _ =>
        if (length (re.rest m) <? length rest)%nat
        then consumed st m :: findall_from r fuel' (re.before m) (re.rest m)
        else match rest with
             | [] => [[]]
             | c :: rest' => [] :: findall_from r fuel' (c :: before) rest'
             end
    | [] =>
        match rest with
        | [] => []
        | c :: rest' => findall_from r fuel' (c :: before) rest'
        end
    end
  end.

(** [r.findall(s)] *)
Definition findall (r : regex) (s : pystr) : list pystr :=
  findall_from r (S (length s)) [] s.

End matching.

End re.

(* ===================================================================== *)
(** * backend/app/crawlers/requests_engine.py *)
(* ===================================================================== *)

Module requests_engine.
Import base.

(** Exceptions that the adapter tells apart: [asyncio.TimeoutError] has
    an [except] clause of its own, every other [Exception] is handled
    through its [str(e)]. *)
Inductive py_exception :=
| TimeoutError
| Exception (msg : pystr).

(** One iteration of [async for chunk in response.content.iter_chunked(8192)]:
    the chunk delivered and the three readings of [time.time()] that
    the loop body takes: when it records [last_chunk_time], when it checks
    the total time, and when it checks the gap between chunks. *)
Record chunk_event := mkChunk {
  chunk : list N;
  t_received : Q;
  t_total_check : Q;
  t_gap_check : Q
}.

(** How the iteration ends after the chunks delivered. *)
Inductive stream_end :=
| EndOfBody (t : Q)                      (* the body is complete at time [t] *)
| ReadError (e : py_exception) (t : Q)   (* the iterator raises at time [t] *)
| Stalls.                                (* no further chunk ever arrives and
                                            nothing interrupts the wait *)

Inductive read_result :=
| ReadReturns (content : list N) (t : Q)
| ReadRaises (e : py_exception)
| ReadHangs.

(** [a > b] on clock readings *)
Definition Qgtb (a b : Q) : bool := negb (Qle_bool a b).

(** [_read_response_with_activity_timeout]; [start_time] is the reading
    of [time.time()] before the loop. *)
Fixpoint read_loop (activity_timeout max_total_time : Z) (start_time : Q)
    (chunks : list chunk_event) (fin : stream_end)
    (content_chunks : list (list N)) : read_result :=
  match chunks with
  | [] =>
    match fin with
    | EndOfBody t => ReadReturns (concat content_chunks) t
    | ReadError e t =>
        match content_chunks with
        | _ :: _ => ReadReturns (concat content_chunks) t
        | [] => ReadRaises e
        end
    | Stalls => ReadHangs
    end
  | ev :: chunks' =>
    match chunk ev with
    | [] => ReadReturns (concat content_chunks) (t_received ev)
    | _ :: _ =>
      let content_chunks := content_chunks ++ [chunk ev] in
      let last_chunk_time := t_received ev in
      if Qgtb (t_total_check ev - start_time) (inject_Z max_total_time) then
        ReadReturns (concat content_chunks) (t_total_check ev)
      else
        let time_since_last_chunk := (t_gap_check ev - last_chunk_time)%Q in
        if Qgtb time_since_last_chunk (inject_Z activity_timeout) then
          ReadReturns (concat content_chunks) (t_gap_check ev)
        else
          read_loop activity_timeout max_total_time start_time chunks' fin
                    content_chunks
    end
  end.

Definition _read_response_with_activity_timeout
    (chunks : list chunk_event) (fin : stream_end)
    (activity_timeout max_total_time : Z) (start_time : Q) : read_result :=
  read_loop activity_timeout max_total_time start_time chunks fin [].

(** What BeautifulSoup and the extraction helpers compute from the
    decoded body. *)
Record page := mkPage {
  title_tag : option pystr;
  text_content : pystr;
  page_hierarchy : gmap pystr pyval;
  quality_score : Q;
  meta_description : option pystr;
  meta_keywords : option pystr;
  og_title : option pystr;
  og_description : option pystr
}.

Record response := mkResponse {
  resp_status : Z;
  reason : pystr;
  content_type : pystr;
  body : list chunk_event;
  body_end : stream_end;
  read_start : Q
}.

(** What [self.session.get(url, timeout=...)] does. *)
Inductive http_exchange :=
| GetRaises (e : py_exception)
| GetResponse (resp : response).

Inductive crawl_run :=
| CrawlReturns (r : CrawlResult)
| CrawlRaises (e : pystr)
| CrawlHangs.

Definition opt_val (o : option pystr) : pyval :=
  match o with Some s => VStr s | None => VNone end.

Section crawl.
(** Decoding and parsing of the body; it may raise. *)
Variable parse : list N -> pyres page.

Definition failed_result (now : Z) (url error_msg : pystr) : CrawlResult :=
  {| url := url;
     title := [];
     text := [];
     hierarchy := ∅;
     metadata :=
       <[py "processing_time" := VStr (py "0s")]>
       (<[py "error_type" := VStr (py "TimeoutError")]>
        {[ py "crawler_used" := VStr (py "requests") ]});
     status := py "failed";
     timestamp := now;
     error := Some error_msg |}.

(** The two [except] clauses of [crawl]. *)
Definition handle (now : Z) (url : pystr) (strategy : CrawlStrategy)
    (e : py_exception) : CrawlResult :=
  match e with
  | TimeoutError =>
      failed_result now url
        (py "연결 시간 초과 (" ++ str_of_Z (timeout strategy) ++ py "초)")
  | Exception msg => failed_result now url msg
  end.

(** The result of a successful crawl. *)
Definition complete_result (now : Z) (url : pystr) (resp : response)
    (content : list N) (pg : page) : CrawlResult :=
  let title :=
    match title_tag pg with Some t => t | None => py "제목 없음" end in
  let q := quality_score pg in
  {| url := url;
     title := title;
     text := text_content pg;
     hierarchy := page_hierarchy pg;
     metadata :=
       list_to_map
         [ (py "crawler_used", VStr (py "requests"));
           (py "processing_time", VStr (py "활동기반"));
           (py "content_quality",
              VStr (if Qgtb q 80 then py "high"
                    else if Qgtb q 50 then py "medium"
                    else py "low"));
           (py "extraction_confidence", VFloat (q / 100));
           (py "http_status", VInt (resp_status resp));
           (py "content_type", VStr (content_type resp));
           (py "content_length", VInt (Z.of_nat (length content)));
           (py "text_length", VInt (Z.of_nat (length (text_content pg))));
           (py "quality_score", VFloat q);
           (py "timeout_strategy", VStr (py "activity_based"));
           (py "meta_description", opt_val (meta_description pg));
           (py "meta_keywords", opt_val (meta_keywords pg));
           (py "og_title", opt_val (og_title pg));
           (py "og_description", opt_val (og_description pg)) ];
     status := py "complete";
     timestamp := now;
     error := None |}.

Definition crawl (now : Z) (is_initialized : bool) (exchange : http_exchange)
    (url : pystr) (strategy : CrawlStrategy) : crawl_run :=
  if negb is_initialized then
    CrawlRaises (py "Requests 엔진이 초기화되지 않았습니다")
  else
    match exchange with
    | GetRaises e => CrawlReturns (handle now url strategy e)
    | GetResponse resp =>
      if 400 <=? resp_status resp then
        CrawlReturns
          (handle now url strategy
             (Exception (py "HTTP " ++ str_of_Z (resp_status resp)
                         ++ py ": " ++ reason resp)))
      else
        match _read_response_with_activity_timeout (body resp) (body_end resp)
                (activity_timeout strategy) (max_total_time strategy)
                (read_start resp) with
        | ReadHangs => CrawlHangs
        | ReadRaises e => CrawlReturns (handle now url strategy e)
        | ReadReturns content _ =>
          match parse content with
          | Exc msg => CrawlReturns (handle now url strategy (Exception msg))
          | Ret pg => CrawlReturns (complete_result now url resp content pg)
          end
        end
    end.

End crawl.

End requests_engine.

(* ===================================================================== *)
(** * backend/app/crawlers/multi_engine.py *)
(* ===================================================================== *)

Module multi_engine.
Import base.

(** [self.engines]: a dictionary, in insertion order. *)
Definition registry := list (pystr * BaseCrawler).

Fixpoint get {A} (k : pystr) (d : list (pystr * A)) : option A :=
  match d with
  | [] => None
  | (k', v) :: d' => if str_eqb k k' then Some v else get k d'
  end.

(** [k in d] *)
Definition has_key {A} (k : pystr) (d : list (pystr * A)) : bool :=
  match get k d with Some _ => true | None => false end.

(** [list(d.keys())] *)
Definition keys {A} (d : list (pystr * A)) : list pystr := map fst d.

(** [d[k] = v] for a key that is present *)
Fixpoint set {A} (k : pystr) (v : A) (d : list (pystr * A)) : list (pystr * A) :=
  match d with
  | [] => []
  | (k', v') :: d' => if str_eqb k k' then (k', v) :: d' else (k', v') :: set k v d'
  end.

Record strategy_entry := mkEntry {
  primary : pystr;
  fallback : list pystr
}.

(** [self.crawler_strategies] *)
Definition crawler_strategies : list (pystr * strategy_entry) :=
  [ (py "complex_spa",
       {| primary := py "crawl4ai";
          fallback := [py "firecrawl"; py "playwright"; py "requests"] |});
    (py "ai_analysis_needed",
       {| primary := py "crawl4ai";
          fallback := [py "firecrawl"; py "playwright"; py "requests"] |});
    (py "anti_bot_heavy",
       {| primary := py "playwright";
          fallback := [py "firecrawl"; py "crawl4ai"; py "requests"] |});
    (py "standard_dynamic",
       {| primary := py "playwright";
          fallback := [py "crawl4ai"; py "firecrawl"; py "requests"] |});
    (py "simple_static",
       {| primary := py "requests";
          fallback := [py "crawl4ai"; py "firecrawl"; py "playwright"] |}) ].

(** The value of the key [crawling_strategy] of an analysis. *)
Record strategy_info := mkInfo {
  recommended_engine : option pystr;
  fallback_engines : option (list pystr);
  strategy_type : option pystr
}.

(** The dictionary that the site analysis returns. *)
Record analysis := mkAnalysis {
  analysis_url : pystr;
  crawling_strategy : option strategy_info;
  is_fallback : bool;
  analysis_status : option pystr;
  analysis_error : option pystr
}.

(** What the analysis service answers for a URL. *)
Inductive mcp_outcome :=
| McpRaises (e : pystr)
| McpReturns (a : analysis).

(** [timeout_config] of [get_strategy_config] *)
Definition timeout_config : list (pystr * Z) :=
  [ (py "complex_spa", 60);
    (py "ai_analysis_needed", 45);
    (py "anti_bot_heavy", 60);
    (py "standard_dynamic", 40);
    (py "simple_static", 30) ].

(** [domain_pattern] of [_validate_url]:
    ^[a-zA-Z0-9]([a-zA-Z0-9\-]{0,61}[a-zA-Z0-9])?(\.[a-zA-Z0-9]([a-zA-Z0-9\-]{0,61}[a-zA-Z0-9])?)*$ *)
Definition alnum : re.regex := re.Set_ [re.Rng 97 122; re.Rng 65 90; re.Rng 48 57].
Definition alnum_dash : re.regex :=
  re.Set_ [re.Rng 97 122; re.Rng 65 90; re.Rng 48 57; re.Chr 45].

Definition label (g : nat) : re.regex :=
  re.Seq alnum
    (re.Opt (re.Group g (re.Seq (re.Rep alnum_dash 0 (Some 61%nat) true) alnum))).

Definition domain_pattern : re.regex :=
  re.Cat [ re.Bol; label 1;
           re.Star (re.Group 2 (re.Seq (re.Lit 46) (label 3)));
           re.Eol ].

Definition known_issues : list pystr :=
  [ py "lineCombOrder/lineCombList.do"; py "javascript:"; py "mailto:"; py "#" ].

Section orchestrator.
Context `{Unicode}.

(** [urllib.parse.urlparse]: the scheme and the network location of a
    URL; the call may raise. *)
Variable urlparse : pystr -> pyres (pystr * pystr).
(** The analysis service. *)
Variable mcp : pystr -> mcp_outcome.
(** The wall time measured around the call of an engine. *)
Variable execution_time : pystr -> Q.
(** [f"{execution_time:.2f}s"] *)
Variable format_seconds : Q -> pystr.
(** The metadata entries that the quality validation of the analysis
    service adds to a result (none when it fails). *)
Variable quality_entries : CrawlResult -> pystr -> list (pystr * pyval).
(** The analysis as a metadata value, and the explanation built by
    [_generate_engine_selection_explanation]. *)
Variable analysis_value : analysis -> pyval.
Variable _generate_engine_selection_explanation :
  analysis -> pystr -> list pystr -> pyval.

Definition _validate_url (url : pystr) : bool * pystr :=
  match url with
  | [] => (false, py "URL이 비어있거나 문자열이 아닙니다")
  | _ :: _ =>
    match urlparse (strip url) with
    | Exc e => (false, py "URL 검증 중 오류: " ++ e)
    | Ret (scheme, netloc) =>
      if match scheme with [] => true | _ :: _ => false end
         || negb (existsb (str_eqb (str_lower scheme)) [py "http"; py "https"])
      then (false, py "지원하지 않는 스키마: " ++ scheme)
      else if match netloc with [] => true | _ :: _ => false end
      then (false, py "도메인이 없습니다")
      else
        match re.match_ re.no_flags domain_pattern
                (hd [] (split 58 netloc)) with
        | None => (false, py "잘못된 도메인 형식: " ++ netloc)
        | Some _ =>
          match find (fun issue => str_in issue url) known_issues with
          | Some issue => (false, py "알려진 문제 URL 패턴: " ++ issue)
          | None => (true, py "유효한 URL")
          end
        end
    end
  end.

Definition spa_keywords := [py "react.dev"; py "vue"; py "angular"; py "spa"].
Definition shopping_keywords :=
  [py "shop.kt.com"; py "shopping"; py "ecommerce"; py "store"].
Definition security_keywords := [py "cloudflare"; py "protected"; py "secure"].
Definition dynamic_keywords := [py "dynamic"; py "app"; py "portal"].

Definition any_in (keywords : list pystr) (s : pystr) : bool :=
  existsb (fun keyword => str_in keyword s) keywords.

Definition _get_fallback_strategy (url : pystr) : analysis :=
  let domain := str_lower url in
  let strategy_type :=
    if any_in spa_keywords domain then py "complex_spa"
    else if any_in shopping_keywords domain then py "ai_analysis_needed"
    else if any_in security_keywords domain then py "anti_bot_heavy"
    else if any_in dynamic_keywords domain then py "standard_dynamic"
    else py "simple_static" in
  let strategy_type :=
    if has_key strategy_type crawler_strategies then strategy_type
    else py "simple_static" in
  match get strategy_type crawler_strategies with
  | None => (* not reached: the key is in the table *)
    {| analysis_url := url; crawling_strategy := None; is_fallback := true;
       analysis_status := Some (py "fallback_strategy"); analysis_error := None |}
  | Some config =>
    {| analysis_url := url;
       crawling_strategy :=
         Some {| recommended_engine := Some (primary config);
                 fallback_engines := Some (fallback config);
                 strategy_type := Some strategy_type |};
       is_fallback := true;
       analysis_status := Some (py "fallback_strategy");
       analysis_error := None |}
  end.

Definition analyze_site_and_get_strategy (url : pystr) : analysis :=
  match mcp url with
  | McpRaises _ => _get_fallback_strategy url
  | McpReturns complete_analysis =>
    match analysis_error complete_analysis with
    | Some _ => _get_fallback_strategy url
    | None => complete_analysis
    end
  end.

Definition get_strategy_config (engines : registry) (strategy_type : pystr)
  : CrawlStrategy :=
  let strategy_type :=
    if has_key strategy_type crawler_strategies then strategy_type
    else py "simple_static" in
  let candidates :=
    match get strategy_type crawler_strategies with
    | Some config => primary config :: fallback config
    | None => []
    end in
  let available_engines := List.filter (fun eng => has_key eng engines) candidates in
  let available_engines :=
    match available_engines with
    | [] => keys engines
    | _ :: _ => available_engines
    end in
  {| engine_priority := available_engines;
     timeout := default 30 (get strategy_type timeout_config);
     max_retries := 3;
     wait_time := 1;
     extract_images := false;
     extract_links := true;
     custom_selectors := ∅;
     anti_bot_mode := false;
     activity_timeout := 15;
     max_total_time := 300 |}.

(** The strategy that [crawl_with_strategy] builds from an analysis when
    no [custom_strategy] is given. *)
Definition strategy_of_analysis (engines : registry) (analysis_result : analysis)
  : CrawlStrategy :=
  let recommended_crawler :=
    match crawling_strategy analysis_result with
    | Some cs => default (py "requests") (recommended_engine cs)
    | None => py "requests"
    end in
  let fallback_crawlers :=
    match crawling_strategy analysis_result with
    | Some cs => default [py "requests"] (fallback_engines cs)
    | None => [py "requests"]
    end in
  let engine_priority :=
    recommended_crawler
      :: List.filter (fun c => negb (str_eqb c recommended_crawler)) fallback_crawlers in
  let available_engines := List.filter (fun eng => has_key eng engines) engine_priority in
  let available_engines :=
    match available_engines with
    | [] => keys engines
    | _ :: _ => available_engines
    end in
  {| engine_priority := available_engines;
     timeout := 30;
     max_retries := 3;
     wait_time := 1;
     extract_images := false;
     extract_links := true;
     custom_selectors := ∅;
     anti_bot_mode := false;
     activity_timeout := 15;
     max_total_time := 300 |}.

(** The additions to the metadata of a successful result. *)
Definition annotate (analysis_result : option analysis) (url : pystr)
    (strategy : CrawlStrategy) (engine_name : pystr) (i : Z)
    (attempted_engines : list pystr) (result : CrawlResult) : CrawlResult :=
  let md := metadata result in
  let md := <[py "attempted_engines" := VStrList attempted_engines]> md in
  let md := <[py "successful_engine_index" := VInt i]> md in
  let md := <[py "total_available_engines" :=
                VInt (Z.of_nat (length (engine_priority strategy)))]> md in
  let md := <[py "processing_time" :=
                VStr (format_seconds (execution_time engine_name))]> md in
  let md := <[py "execution_time" := VFloat (execution_time engine_name)]> md in
  let md := <[py "engine_used" := VStr engine_name]> md in
  let with_md md :=
    {| url := base.url result; title := title result; text := text result;
       hierarchy := hierarchy result; metadata := md; status := status result;
       timestamp := timestamp result; error := error result |} in
  match analysis_result with
  | None => with_md md
  | Some a =>
    let md :=
      fold_left (fun m kv => <[fst kv := snd kv]> m)
                (quality_entries (with_md md) url) md in
    let md := <[py "mcp_analysis" := analysis_value a]> md in
    let md := <[py "used_mcp_intelligence" := VBool true]> md in
    let md := <[py "engine_selection_reason" :=
                  _generate_engine_selection_explanation
                    a engine_name attempted_engines]> md in
    with_md md
  end.

Inductive loop_exit :=
| Succeeded (result : CrawlResult)
| All_failed (attempted_engines : list pystr) (last_error : option pystr).

(** The loop [for i, engine_name in enumerate(strategy.engine_priority, 1)]. *)
Fixpoint engine_loop (now : Z) (analysis_result : option analysis)
    (url : pystr) (strategy : CrawlStrategy)
    (todo : list pystr) (i : Z) (engines : registry)
    (attempted_engines : list pystr) (last_error : option pystr)
    (log : list event) : loop_exit * registry * list event :=
  match todo with
  | [] => (All_failed attempted_engines last_error, engines, log)
  | engine_name :: todo' =>
    let attempted_engines := attempted_engines ++ [engine_name] in
    match get engine_name engines with
    | None =>
        engine_loop now analysis_result url strategy todo' (i + 1) engines
                    attempted_engines last_error log
    | Some engine =>
      match crawl_with_retry now engine url strategy with
      | (Ret result, engine', evs) =>
        let engines' := set engine_name engine' engines in
        if str_eqb (status result) (py "complete") then
          (Succeeded (annotate analysis_result url strategy engine_name i
                               attempted_engines result),
           engines', log ++ evs)
        else
          engine_loop now analysis_result url strategy todo' (i + 1) engines'
                      attempted_engines (error result) (log ++ evs)
      | (Exc e, engine', evs) =>
        engine_loop now analysis_result url strategy todo' (i + 1)
                    (set engine_name engine' engines)
                    attempted_engines (Some e) (log ++ evs)
      end
    end
  end.

(** [str(x)] for an optional string *)
Definition str_of_option (o : option pystr) : pystr :=
  match o with Some s => s | None => py "None" end.

(** The result for a URL that does not pass the validation. *)
Definition validation_failed_result (now : Z) (url validation_msg : pystr)
  : CrawlResult :=
  {| url := url; title := []; text := []; hierarchy := ∅;
     metadata :=
       <[py "validation_failed" := VBool true]>
         {[ py "error" := VStr validation_msg ]};
     status := py "failed";
     timestamp := now;
     error := Some (py "URL 유효성 검사 실패: " ++ validation_msg) |}.

(** The result when no engine of the list has succeeded. *)
Definition all_engines_failed_result (now : Z) (url : pystr)
    (strategy : CrawlStrategy) (attempted_engines : list pystr)
    (last_error : option pystr) : CrawlResult :=
  {| url := url; title := []; text := []; hierarchy := ∅;
     metadata :=
       list_to_map
         [ (py "attempted_engines", VStrList attempted_engines);
           (py "total_available_engines",
              VInt (Z.of_nat (length (engine_priority strategy))));
           (py "final_error", VStr (str_of_option last_error));
           (py "all_engines_failed", VBool true) ];
     status := py "failed";
     timestamp := now;
     error := Some (py "모든 엔진 실패: " ++ str_of_option last_error) |}.

Definition crawl_with_strategy (now : Z) (is_initialized : bool)
    (engines : registry) (url : pystr) (custom_strategy : option CrawlStrategy)
  : pyres CrawlResult * registry * list event :=
  if negb is_initialized then
    (Exc (py "크롤러가 초기화되지 않았습니다"), engines, [])
  else
    let '(is_valid, validation_msg) := _validate_url url in
    if negb is_valid then
      (Ret (validation_failed_result now url validation_msg), engines, [])
    else
      let '(analysis_result, strategy) :=
        match custom_strategy with
        | Some s => (None, s)
        | None =>
          let a := analyze_site_and_get_strategy url in
          (Some a, strategy_of_analysis engines a)
        end in
      match engine_loop now analysis_result url strategy
              (engine_priority strategy) 1 engines [] None [] with
      | (Succeeded result, engines', log) => (Ret result, engines', log)
      | (All_failed attempted_engines last_error, engines', log) =>
        (Ret (all_engines_failed_result now url strategy attempted_engines
                                        last_error),
         engines', log)
      end.

End orchestrator.

End multi_engine.

(* ===================================================================== *)
(** * backend/app/utils/natural_language_parser.py *)
(* ===================================================================== *)

Module natural_language_parser.

Record SelectiveCrawlingIntent := mkSelective {
  sel_urls : list pystr;
  sel_target_content : pystr;
  sel_raw_request : pystr;
  sel_confidence : Q;
  extraction_type : pystr
}.

Record UnifiedIntent := mkIntent {
  request_type : pystr;
  urls : list pystr;
  target_content : pyval;
  search_query : option pystr;
  platform : option pystr;
  confidence : Q;
  raw_request : pystr;
  metadata : gmap pystr pyval
}.

(** [self.content_type_patterns], in the order of the dictionary *)
Definition content_type_patterns : list (pystr * list pystr) :=
  [ (py "제목", [py "제목"; py "타이틀"; py "title"; py "헤드라인"; py "headline"]);
    (py "가격", [py "가격"; py "price"; py "비용"; py "cost"; py "금액"; py "요금"]);
    (py "본문", [py "본문"; py "내용"; py "content"; py "글"; py "article";
                 py "텍스트"; py "text"]);
    (py "리뷰", [py "리뷰"; py "review"; py "후기"; py "평가"; py "댓글"; py "comment"]);
    (py "요약", [py "요약"; py "summary"; py "개요"; py "핵심"; py "정리"]);
    (py "이미지", [py "이미지"; py "image"; py "사진"; py "photo"; py "그림";
                   py "picture"]);
    (py "링크", [py "링크"; py "link"; py "url"; py "주소"]);
    (py "날짜", [py "날짜"; py "date"; py "시간"; py "time"; py "작성일"]) ].

Definition letters : list re.cset_item := [re.Rng 97 122; re.Rng 65 90].
Definition digits : list re.cset_item := [re.Rng 48 57].
Definition hex : list re.cset_item := [re.Rng 48 57; re.Rng 97 102; re.Rng 65 70].
Definition alnum : list re.cset_item := [re.Rng 97 122; re.Rng 65 90; re.Rng 48 57].
Definition alnum_dash : list re.cset_item :=
  [re.Rng 97 122; re.Rng 65 90; re.Rng 48 57; re.Chr 45].

(** [self.url_pattern]:
    http[s]?://(?:[a-zA-Z]|[0-9]|[$-_@.&+]|[!*\\(\\),]|(?:%[0-9a-fA-F][0-9a-fA-F]))+ *)
Definition url_pattern : re.regex :=
  re.Cat
    [ re.Str (py "http"); re.Opt (re.Set_ [re.Chr 115]); re.Str (py "://");
      re.Plus
        (re.Alt (re.Set_ letters)
        (re.Alt (re.Set_ digits)
        (re.Alt (re.Set_ [re.Rng 36 95; re.Chr 64; re.Chr 46; re.Chr 38; re.Chr 43])
        (re.Alt (re.Set_ [re.Chr 33; re.Chr 42; re.Chr 92; re.Chr 40;
                          re.Chr 92; re.Chr 41; re.Chr 44])
                (re.Cat [re.Lit 37; re.Set_ hex; re.Set_ hex]))))) ].

(** [self.domain_pattern]:
    (?:www\.)?[a-zA-Z0-9](?:[a-zA-Z0-9-]{0,61}[a-zA-Z0-9])?(?:\.[a-zA-Z0-9](?:[a-zA-Z0-9-]{0,61}[a-zA-Z0-9])?)*\.[a-zA-Z]{2,} *)
Definition domain_label : re.regex :=
  re.Seq (re.Set_ alnum)
    (re.Opt (re.Seq (re.Rep (re.Set_ alnum_dash) 0 (Some 61%nat) true)
                    (re.Set_ alnum))).

Definition domain_pattern : re.regex :=
  re.Cat
    [ re.Opt (re.Str (py "www."));
      domain_label;
      re.Star (re.Seq (re.Lit 46) domain_label);
      re.Lit 46;
      re.AtLeast 2 (re.Set_ letters) ].

(** [list(set(urls))]: the distinct elements. Python lists them in the
    order of its hash table; here they keep the order of first
    occurrence. *)
Fixpoint distinct (seen l : list pystr) : list pystr :=
  match l with
  | [] => []
  | x :: l' =>
    if existsb (str_eqb x) seen then distinct seen l'
    else x :: distinct (x :: seen) l'
  end.

Definition any_in (keywords : list pystr) (s : pystr) : bool :=
  existsb (fun keyword => str_in keyword s) keywords.

Definition Qmaxb (a b : Q) : Q := if Qle_bool a b then b else a.
Definition Qminb (a b : Q) : Q := if Qle_bool a b then a else b.

Section parser.
Context `{Unicode}.

Definition extract_urls (text : pystr) : list pystr :=
  let full_urls := re.findall re.no_flags url_pattern text in
  let domain_matches := re.findall re.no_flags domain_pattern text in
  let urls :=
    full_urls ++
    flat_map
      (fun domain =>
         if negb (existsb (fun url => str_in domain url) full_urls) then
           let domain :=
             if negb (startswith (py "www.") domain)
             then py "www." ++ domain else domain in
           [py "https://" ++ domain]
         else [])
      domain_matches in
  distinct [] urls.

(** The confidence that the keywords of one content type reach. *)
Fixpoint keyword_confidence (text_lower : pystr) (keywords : list pystr)
    (confidence : Q) : Q :=
  match keywords with
  | [] => confidence
  | keyword :: keywords' =>
    let confidence :=
      if str_in keyword text_lower then
        if str_in (keyword ++ py "만") text_lower
           || str_in (keyword ++ py " 만") text_lower
        then Qmaxb confidence (8 # 10)
        else Qmaxb confidence (5 # 10)
      else confidence in
    keyword_confidence text_lower keywords' confidence
  end.

Fixpoint detect_loop (text_lower : pystr) (patterns : list (pystr * list pystr))
    (best_match : pystr) (max_confidence : Q) : pystr * Q :=
  match patterns with
  | [] => (best_match, max_confidence)
  | (content_type, keywords) :: patterns' =>
    let confidence := keyword_confidence text_lower keywords 0 in
    let confidence :=
      if str_eqb content_type (py "제목")
         && any_in [py "추출"; py "가져"; py "뽑아"] text_lower
      then Qminb 1 (Qred (confidence + (2 # 10)))
      else confidence in
    if Qle_bool confidence max_confidence
    then detect_loop text_lower patterns' best_match max_confidence
    else detect_loop text_lower patterns' content_type confidence
  end.

Definition detect_target_content (text : pystr) : pystr * Q :=
  let text_lower := str_lower text in
  let '(best_match, max_confidence) :=
    detect_loop text_lower content_type_patterns (py "전체") 0 in
  (best_match, Qminb 1 (Qmaxb 0 max_confidence)).

Definition parse_selective_request (text : pystr) : SelectiveCrawlingIntent :=
  let urls := extract_urls text in
  let '(target_content, confidence) := detect_target_content text in
  let extraction_type :=
    if match urls with [] => false | _ :: _ => true end
       && negb (str_eqb target_content (py "전체"))
    then py "selective" else py "full" in
  {| sel_urls := urls;
     sel_target_content := target_content;
     sel_raw_request := text;
     sel_confidence := confidence;
     extraction_type := extraction_type |}.

Definition _analyze_selective_intent (text : pystr) (urls : list pystr)
  : UnifiedIntent :=
  let selective_intent := parse_selective_request text in
  {| request_type := py "selective";
     urls := urls;
     target_content := VStr (sel_target_content selective_intent);
     search_query := None;
     platform := None;
     confidence := sel_confidence selective_intent;
     raw_request := text;
     metadata :=
       <[py "processing_type" := VStr (py "selective_crawl")]>
         {[ py "extraction_type" := VStr (extraction_type selective_intent) ]} |}.

Definition platforms : list pystr := [py "쿠팡"; py "네이버"; py "구글"; py "아마존"].

Definition ignorecase : re.flags :=
  {| re.IGNORECASE := true; re.MULTILINE := false; re.DOTALL := false |}.

Definition spaces : re.regex := re.Plus (re.Set_ [re.Space]).

(** [search_patterns] of [_analyze_search_intent]:
    에서\s+(.+?)\s+찾아줘, 에서\s+(.+?)\s+검색, (.+?)\s+정보\s+찾아줘 *)
Definition search_patterns : list re.regex :=
  [ re.Cat [re.Str (py "에서"); spaces; re.Group 1 (re.PlusLazy re.Any); spaces;
            re.Str (py "찾아줘")];
    re.Cat [re.Str (py "에서"); spaces; re.Group 1 (re.PlusLazy re.Any); spaces;
            re.Str (py "검색")];
    re.Cat [re.Group 1 (re.PlusLazy re.Any); spaces; re.Str (py "정보"); spaces;
            re.Str (py "찾아줘")] ].

(** The first pattern that is found gives the query. *)
Fixpoint first_query (patterns : list re.regex) (text : pystr) : option pystr :=
  match patterns with
  | [] => None
  | pattern :: patterns' =>
    match re.search re.no_flags pattern text with
    | Some (_, m) => Some (strip (re.group 1 m))
    | None => first_query patterns' text
    end
  end.

Definition _analyze_search_intent (text : pystr) : UnifiedIntent :=
  let detected_platform :=
    find (fun platform =>
            match re.search ignorecase (re.Str platform) text with
            | Some _ => true | None => false
            end)
         platforms in
  let search_query := first_query search_patterns text in
  {| request_type := py "search";
     urls := [];
     target_content := VNone;
     search_query := search_query;
     platform := detected_platform;
     confidence :=
       match detected_platform, search_query with
       | Some (_ :: _), Some (_ :: _) => 7 # 10
       | _, _ => 3 # 10
       end;
     raw_request := text;
     metadata :=
       <[py "requires_implementation" := VBool true]>
         {[ py "processing_type" := VStr (py "platform_search") ]} |}.

Definition _analyze_bulk_selective_intent (text : pystr) (urls : list pystr)
  : UnifiedIntent :=
  let hit := find (fun kv => str_in (fst kv) text) content_type_patterns in
  {| request_type := py "bulk_selective";
     urls := urls;
     target_content :=
       match hit with Some kv => VStrList (snd kv) | None => VNone end;
     search_query := None;
     platform := None;
     confidence :=
       match hit with
       | Some _ => Qminb (Qred ((6 # 10) + (2 # 10))) 1
       | None => Qminb (6 # 10) 1
       end;
     raw_request := text;
     metadata :=
       <[py "requires_implementation" := VBool true]>
       (<[py "url_count" := VInt (Z.of_nat (length urls))]>
        {[ py "processing_type" := VStr (py "bulk_selective_crawl") ]}) |}.

(** [any(keyword in text for keyword in self.content_type_patterns.keys())] *)
Definition has_extraction_keywords (text : pystr) : bool :=
  any_in (map fst content_type_patterns) text.

Definition has_search_keywords (text : pystr) : bool :=
  any_in [py "찾아줘"; py "검색"; py "찾기"; py "알아봐"] text.

Definition has_platform_keywords (text : pystr) : bool :=
  any_in [py "쿠팡"; py "네이버"; py "구글"; py "아마존"] text.

Definition analyze_unified_intent (text : pystr) : UnifiedIntent :=
  let urls := extract_urls text in
  let url_count := length urls in
  match url_count with
  | O =>
    if has_platform_keywords text && has_search_keywords text then
      _analyze_search_intent text
    else
      {| request_type := py "invalid";
         urls := [];
         target_content := VNone;
         search_query := None;
         platform := None;
         confidence := 0;
         raw_request := text;
         metadata :=
           {[ py "error" := VStr (py "URL 또는 검색 의도를 찾을 수 없습니다") ]} |}
  | 1%nat =>
    if has_extraction_keywords text then
      _analyze_selective_intent text urls
    else
      {| request_type := py "single";
         urls := urls;
         target_content := VNone;
         search_query := None;
         platform := None;
         confidence := 9 # 10;
         raw_request := text;
         metadata := {[ py "processing_type" := VStr (py "full_crawl") ]} |}
  | _ =>
    if has_extraction_keywords text then
      _analyze_bulk_selective_intent text urls
    else
      {| request_type := py "bulk";
         urls := urls;
         target_content := VNone;
         search_query := None;
         platform := None;
         confidence := 8 # 10;
         raw_request := text;
         metadata :=
           <[py "url_count" := VInt (Z.of_nat url_count)]>
             {[ py "processing_type" := VStr (py "bulk_crawl") ]} |}
  end.

End parser.

End natural_language_parser.

(* ===================================================================== *)
(** * backend/app/utils/text_processor.py *)
(* ===================================================================== *)

Module text_processor.
Import base re.

(** [s.replace(old, new)] for a non-empty [old] *)
Fixpoint replace_from (fuel : nat) (old new s : pystr) : pystr :=
  match fuel with
  | O => s
  | S fuel' =>
    if startswith old s then
      new ++ replace_from fuel' old new (skipn (length old) s)
    else
      match s with
      | [] => []
      | c :: s' => c :: replace_from fuel' old new s'
      end
  end.

Definition replace (old new s : pystr) : pystr :=
  replace_from (S (length s)) old new s.

Definition multiline : flags :=
  {| IGNORECASE := false; MULTILINE := true; DOTALL := false |}.
Definition multiline_ignorecase : flags :=
  {| IGNORECASE := true; MULTILINE := true; DOTALL := false |}.
Definition dotall_multiline_ignorecase : flags :=
  {| IGNORECASE := true; MULTILINE := true; DOTALL := true |}.

Definition s_star : regex := Star (Set_ [Space]).          (* \s*      *)
Definition s_plus : regex := Plus (Set_ [Space]).          (* \s+      *)
Definition not_ (c : N) : regex := NSet [Chr c].           (* [^c]     *)
Definition any_lazy : regex := StarLazy Any.               (* .*?      *)

(** \[([^\]]+)\]\(   the head of a markdown link, its text in group 1 *)
Definition link_head : regex :=
  Cat [Lit 91; Group 1 (Plus (not_ 93)); Lit 93; Lit 40].

(** \\([()]) *)
Definition escaped_paren : regex :=
  Seq (Lit 92) (Group 1 (Set_ [Chr 40; Chr 41])).

(** \[([^\]]+)\]\(javascript:[^)]*(?:\([^)]*\))*[^)]*\) *)
Definition javascript_link : regex :=
  Cat [ link_head; Str (py "javascript:"); Star (not_ 41);
        Star (Cat [Lit 40; Star (not_ 41); Lit 41]);
        Star (not_ 41); Lit 41 ].

(** \[([^\]]+)\]\(#[^)]*\) *)
Definition anchor_link : regex :=
  Cat [link_head; Lit 35; Star (not_ 41); Lit 41].

(** \[([^\]]+)\]\(mailto:[^)]*\) *)
Definition mailto_link : regex :=
  Cat [link_head; Str (py "mailto:"); Star (not_ 41); Lit 41].

(** \[([^\]]+)\]\((https?://[^/)]+)/[^)]*\) *)
Definition http_link : regex :=
  Cat [ link_head;
        Group 2 (Cat [Str (py "http"); Opt (Lit 115); Str (py "://");
                      Plus (NSet [Chr 47; Chr 41])]);
        Lit 47; Star (not_ 41); Lit 41 ].

(** [ui_patterns] *)
Definition ui_patterns : list regex :=
  [ Cat [Lit 95; Star (not_ 95); Str (py "아이콘"); Lit 95];
    Cat [Lit 95; Star (not_ 95); Str (py "버튼"); Lit 95];
    Cat [Lit 95; Star (not_ 95); Str (py "링크"); Lit 95];
    Cat [Str (py "로그인전"); s_star; Str (py "아이콘"); s_star];
    Cat [s_star; Str (py "바로가기"); s_star; Eol];
    Cat [s_star; Str (py "더보기"); s_star; Eol];
    Cat [Str (py "검색"); s_star; Eol];
    Cat [Str (py "로그인"); s_star; Eol];
    Cat [Str (py "본문"); s_star; Str (py "바로가기"); any_lazy;
         Str (py "바로"); s_star; Str (py "가기")];
    Cat [s_star; Str (py "새창열림"); s_star];
    Cat [s_star; Str (py "펼치기"); s_star];
    Cat [Lit 34; Star (not_ 34); Str (py "새창열림"); Star (not_ 34); Lit 34];
    Cat [Lit 34; Star (not_ 34); Str (py "펼치기"); Star (not_ 34); Lit 34] ].

(** #{4,} *)
Definition long_header : regex := AtLeast 4 (Lit 35).
(** ^[\*\-_]{3,}\s*$ *)
Definition rule_line : regex :=
  Cat [Bol; AtLeast 3 (Set_ [Chr 42; Chr 45; Chr 95]); s_star; Eol].
(** ^\*\s*\*\s*\*\s*$ *)
Definition star_rule_line : regex :=
  Cat [Bol; Lit 42; s_star; Lit 42; s_star; Lit 42; s_star; Eol].
(** ^ \s* \* \s+   with the leading white space as group 1 *)
Definition star_bullet : regex :=
  Cat [Bol; Group 1 s_star; Lit 42; s_plus].
(**  {2,} *)
Definition blanks : regex := AtLeast 2 (Lit 32).
(**  +$ *)
Definition trailing_blanks : regex := Seq (Plus (Lit 32)) Eol.
(** \n{3,} *)
Definition blank_lines : regex := AtLeast 3 (Lit 10).
(** #\s*([^#]+?)# *)
Definition hashtag_pair : regex :=
  Cat [Lit 35; s_star; Group 1 (PlusLazy (not_ 35)); Lit 35].
(** #\s*([^#]+?)$ *)
Definition hashtag_last : regex :=
  Cat [Lit 35; s_star; Group 1 (PlusLazy (not_ 35)); Eol].

Section cleaning.
Context `{Unicode}.

(** The body of the loop over the lines: the lines that are kept. *)
Definition improve_line (line : pystr) : list pystr :=
  let line := strip line in
  match line with
  | [] => [[]]
  | _ :: _ =>
    if (length line =? 1)%nat && str_in line (py "#*-_") then []
    else if startswith (py "* ") line && (length line <? 5)%nat then []
    else if str_in (py "#") line && negb (startswith (py "#") line) then
      let line := sub no_flags hashtag_pair
                      [TLit (py "# "); TGroup 1; TLit (py " #")] line in
      let line := sub no_flags hashtag_last [TLit (py "# "); TGroup 1] line in
      [line]
    else [line]
  end.

Definition clean_crawled_text (text : pystr) : pystr :=
  match text with
  | [] => []
  | _ :: _ =>
    let cleaned := replace [92; 110]%N [10]%N text in
    let cleaned := replace [92; 116]%N [9]%N cleaned in
    let cleaned := replace [92; 34]%N [34]%N cleaned in
    let cleaned := replace [92; 39]%N [39]%N cleaned in
    let cleaned := sub no_flags escaped_paren [TGroup 1] cleaned in
    let cleaned := sub no_flags javascript_link [TGroup 1] cleaned in
    let cleaned := sub no_flags anchor_link [TGroup 1] cleaned in
    let cleaned := sub no_flags mailto_link [TGroup 1] cleaned in
    let cleaned :=
      sub no_flags http_link
          [TGroup 1; TLit (py " ("); TGroup 2; TLit (py ")")] cleaned in
    let cleaned :=
      fold_left (fun cleaned pattern => sub multiline_ignorecase pattern [] cleaned)
                ui_patterns cleaned in
    let cleaned := sub no_flags long_header [TLit (py "###")] cleaned in
    let cleaned := sub multiline rule_line [] cleaned in
    let cleaned := sub multiline star_rule_line [] cleaned in
    let cleaned := sub multiline star_bullet [TGroup 1; TLit (py "- ")] cleaned in
    let cleaned := sub no_flags blanks [TLit (py " ")] cleaned in
    let cleaned := sub multiline trailing_blanks [] cleaned in
    let cleaned := sub no_flags blank_lines [TLit [10; 10]%N] cleaned in
    let lines := split 10 cleaned in
    let improved_lines := flat_map improve_line lines in
    let result := join [10]%N improved_lines in
    let result := strip result in
    sub no_flags blank_lines [TLit [10; 10]%N] result
  end.

(** [major_navigation_blocks] of [extract_main_content]; the patterns are
    applied with DOTALL, MULTILINE and IGNORECASE. *)
Definition hashes : regex := Str (py "##").
Definition stars : regex := Str (py "**").
Definition bullet_start : regex := Cat [Bol; Lit 42; NSet [Chr 42]].  (* ^\*[^*] *)

Definition major_navigation_blocks : list regex :=
  [ (* \*\*QUICK MENU\*\*.*?(?=##|\n\n\*\*|$) *)
    Cat [stars; Str (py "QUICK MENU"); stars; any_lazy;
         Ahead (Alt hashes (Alt (Cat [Lit 10; Lit 10; stars]) Eol))];
    (* \*\*인기메뉴\*\*.*?(?=##|\*\*kt|\n\n|$) *)
    Cat [stars; Str (py "인기메뉴"); stars; any_lazy;
         Ahead (Alt hashes (Alt (Seq stars (Str (py "kt")))
                           (Alt (Str [10; 10]%N) Eol)))];
    (* \*\*!\[kt.*?(?=##|^\*\s|$) *)
    Cat [stars; Str (py "![kt"); any_lazy;
         Ahead (Alt hashes (Alt (Cat [Bol; Lit 42; Set_ [Space]]) Eol))];
    (* ^\*\s+Shop.*?(?=##|^\*[^*]|$) *)
    Cat [Bol; Lit 42; s_plus; Str (py "Shop"); any_lazy;
         Ahead (Alt hashes (Alt bullet_start Eol))];
    (* ^\*\s+상품.*?(?=##|^\*[^*]|$) *)
    Cat [Bol; Lit 42; s_plus; Str (py "상품"); any_lazy;
         Ahead (Alt hashes (Alt bullet_start Eol))];
    (* ^\*\s+로밍.*?(?=##|^\*[^*]|$) *)
    Cat [Bol; Lit 42; s_plus; Str (py "로밍"); any_lazy;
         Ahead (Alt hashes (Alt bullet_start Eol))];
    (* Family Site.*?$ *)
    Cat [Str (py "Family Site"); any_lazy; Eol];
    (* \[그룹사 소개\].*?$ *)
    Cat [Str (py "[그룹사 소개]"); any_lazy; Eol];
    (* \(주\)케이티.*?맨위로 스크롤 *)
    Cat [Str (py "(주)케이티"); any_lazy; Str (py "맨위로 스크롤")] ].

(** [detailed_patterns] of [extract_main_content]; the patterns are
    applied with MULTILINE and IGNORECASE. *)
Definition digit : regex := Set_ [Digit].
Definition all_rights : regex :=
  Seq (Str (py "ALL RIGHTS RESERVED")) (Opt (Lit 46)).
Definition http_scheme : regex :=
  Cat [Str (py "http"); Opt (Lit 115); Str (py "://")].

Definition detailed_patterns : list regex :=
  [ (* 본문 바로가기.*?바로 가기 *)
    Cat [Str (py "본문 바로가기"); any_lazy; Str (py "바로 가기")];
    (* 평일오전.*?오후\d+시 *)
    Cat [Str (py "평일오전"); any_lazy; Str (py "오후"); Plus digit; Str (py "시")];
    (* \d{4}-\d{4}\s*\(.*?\) *)
    Cat [Rep digit 4 (Some 4%nat) true; Lit 45; Rep digit 4 (Some 4%nat) true;
         s_star; Lit 40; any_lazy; Lit 41];
    (* Copyright.*?ALL RIGHTS RESERVED\.? *)
    Cat [Str (py "Copyright"); any_lazy; all_rights];
    (* COPYRIGHTⓒ.*?ALL RIGHTS RESERVED\.? *)
    Cat [Str (py "COPYRIGHTⓒ"); any_lazy; all_rights];
    (* ;?\)$ *)
    Cat [Opt (Lit 59); Lit 41; Eol];
    (* https?://[^\s)]+\) *)
    Cat [http_scheme; Plus (NSet [Space; Chr 41]); Lit 41];
    (* \([^)]*https?://[^)]*\) *)
    Cat [Lit 40; Star (not_ 41); http_scheme; Star (not_ 41); Lit 41] ].

(** [#\*\-]{2,}   and   _[^_]*_|아이콘|버튼 *)
Definition markdown_run : regex := AtLeast 2 (Set_ [Chr 35; Chr 42; Chr 45]).
Definition ui_element : regex :=
  Alt (Cat [Lit 95; Star (not_ 95); Lit 95])
      (Alt (Str (py "아이콘")) (Str (py "버튼"))).

Definition extract_main_content (text : pystr) : pystr :=
  match text with
  | [] => []
  | _ :: _ =>
    let cleaned :=
      fold_left
        (fun cleaned pattern => sub dotall_multiline_ignorecase pattern [] cleaned)
        major_navigation_blocks text in
    let cleaned :=
      fold_left
        (fun cleaned pattern => sub multiline_ignorecase pattern [] cleaned)
        detailed_patterns cleaned in
    clean_crawled_text cleaned
  end.

(** [a / b] on the lengths and counts that are turned into floats *)
Definition ratio (a b : Z) : Q := Qred (inject_Z a / inject_Z b).

Definition get_processing_quality_score (original_text cleaned_text : pystr) : Q :=
  match original_text, cleaned_text with
  | [], _ | _, [] => 0
  | _ :: _, _ :: _ =>
    let len s := Z.of_nat (length s) in
    let count r s := Z.of_nat (length (findall no_flags r s)) in
    let length_ratio := ratio (len cleaned_text) (len original_text) in
    let markdown_before := count markdown_run original_text in
    let markdown_after := count markdown_run cleaned_text in
    let markdown_reduction :=
      ratio (markdown_before - markdown_after) (Z.max markdown_before 1) in
    let ui_before := count ui_element original_text in
    let ui_after := count ui_element cleaned_text in
    let ui_reduction := ratio (ui_before - ui_after) (Z.max ui_before 1) in
    let quality_score :=
      Qred (length_ratio * (4 # 10) + markdown_reduction * (3 # 10)
            + ui_reduction * (3 # 10)) in
    let lower_bounded := if Qle_bool quality_score 0 then 0%Q else quality_score in
    if Qle_bool lower_bounded 1 then lower_bounded else 1%Q
  end.

(** The keys that [post_process_crawl_result] writes into the metadata. *)
Definition processing_keys : list pystr :=
  [ py "post_processing_applied"; py "original_text_length";
    py "processed_text_length"; py "text_reduction_ratio";
    py "processing_quality_score"; py "processing_timestamp" ].

(** [post_process_crawl_result]; [now_iso] is [datetime.now().isoformat()]. *)
Definition post_process_crawl_result (now_iso : pystr)
    (crawl_result : CrawlResult) (clean_text : bool) : CrawlResult :=
  if negb clean_text || match text crawl_result with [] => true | _ => false end
  then crawl_result
  else
    let original_text := text crawl_result in
    let cleaned_text := extract_main_content original_text in
    let processing_quality :=
      get_processing_quality_score original_text cleaned_text in
    let new_metadata := metadata crawl_result in
    let new_metadata :=
      <[py "post_processing_applied" := VBool true]> new_metadata in
    let new_metadata :=
      <[py "original_text_length" :=
          VInt (Z.of_nat (length original_text))]> new_metadata in
    let new_metadata :=
      <[py "processed_text_length" :=
          VInt (Z.of_nat (length cleaned_text))]> new_metadata in
    let new_metadata :=
      <[py "text_reduction_ratio" :=
          VFloat (ratio (Z.of_nat (length cleaned_text))
                        (Z.of_nat (length original_text)))]> new_metadata in
    let new_metadata :=
      <[py "processing_quality_score" := VFloat processing_quality]> new_metadata in
    let new_metadata :=
      <[py "processing_timestamp" := VStr now_iso]> new_metadata in
    {| url := url crawl_result;
       title := title crawl_result;
       text := cleaned_text;
       hierarchy := hierarchy crawl_result;
       metadata := new_metadata;
       status := status crawl_result;
       timestamp := timestamp crawl_result;
       error := error crawl_result |}.

End cleaning.

End text_processor.

(* ===================================================================== *)
(** * backend/app/api/routes.py: acceptance of a bulk job *)
(* ===================================================================== *)

Module routes.



Definition digit (n : N) : N := (48 + n mod 10)%N.



Inductive response :=
| HTTP503 (detail : pystr)
| Started (job_id : pystr) (total : Z).


End routes.

(* ===================================================================== *)
(** * Theorems *)
(* ===================================================================== *)

(** ** Strings *)

Lemma startswith_app (p s : pystr) : startswith p (p ++ s) = true.
Proof.
  induction p as [|c p IH]; simpl; [reflexivity|].
  rewrite N.eqb_refl. exact IH.
Qed.

Lemma str_in_unfold (p s : pystr) :
  str_in p s
  = startswith p s || match s with [] => false | _ :: s' => str_in p s' end.
Proof. destruct s; reflexivity. Qed.

Lemma str_in_app (p a b : pystr) : str_in p (a ++ p ++ b) = true.
Proof.
  induction a as [|c a IH].
  - rewrite str_in_unfold. simpl. rewrite startswith_app. reflexivity.
  - rewrite str_in_unfold. simpl. rewrite IH. apply orb_true_r.
Qed.

Lemma startswith_prefix (p s : pystr) :
  startswith p s = true -> exists t, s = p ++ t.
Proof.
  revert s. induction p as [|c p IH]; intros s Hs.
  - exists s. reflexivity.
  - destruct s as [|d s]; [discriminate|]. simpl in Hs.
    apply andb_prop in Hs as [Hc Hp]. apply N.eqb_eq in Hc. subst d.
    destruct (IH _ Hp) as [t ->]. exists t. reflexivity.
Qed.

(** ** base.py: the retry policy *)

Section retry_policy.
Import base.
Context `{Unicode}.
Variables (now : Z) (url : pystr) (strategy : CrawlStrategy).

(** The engine after [j] further calls of [crawl] that raised. *)
Definition after_calls (self : BaseCrawler) (j : nat) : BaseCrawler :=
  {| name := name self; stats := stats self;
     calls := (calls self + j)%nat; behaviour := behaviour self |}.

(** The outcome of the call number [k] from now on. *)
Definition outcome (self : BaseCrawler) (k : nat) : crawl_outcome :=
  behaviour self (calls self + k)%nat url strategy.

Definition transient (self : BaseCrawler) (k : nat) : Prop :=
  exists e, outcome self k = Raises e /\ is_permanent (str_lower e) = false.

Definition permanent (self : BaseCrawler) (k : nat) (e : pystr) : Prop :=
  outcome self k = Raises e /\ is_permanent (str_lower e) = true.

(** Attempts [a], ..., [a + j - 1], each followed by its back-off sleep. *)
Definition backoff (self : BaseCrawler) (a j : nat) : list event :=
  flat_map
    (fun i => [ EvCrawl (name self) (Z.of_nat i);
                EvSleep (wait_time strategy * inject_Z (2 ^ Z.of_nat i)) ])
    (seq a j).

(** The attempts [0], ..., [j] with the sleeps between them. *)
Definition schedule (self : BaseCrawler) (j : nat) : list event :=
  backoff self 0 j ++ [EvCrawl (name self) (Z.of_nat j)].

Lemma after_calls_0 self :
  after_calls self 0 = self.
Proof.
  destruct self. unfold after_calls. simpl. rewrite Nat.add_0_r. reflexivity.
Qed.

Lemma crawl_after_calls self j :
  crawl (after_calls self j) url strategy
  = (outcome self j, after_calls self (S j)).
Proof.
  unfold crawl, after_calls, outcome. simpl.
  rewrite Nat.add_succ_r. reflexivity.
Qed.

Lemma backoff_snoc self a j :
  backoff self a (S j)
  = backoff self a j
    ++ [ EvCrawl (name self) (Z.of_nat (a + j));
         EvSleep (wait_time strategy * inject_Z (2 ^ Z.of_nat (a + j))) ].
Proof.
  unfold backoff. rewrite seq_S, flat_map_app. reflexivity.
Qed.

(** After [j] transient failures the loop stands before attempt [a + j]
    and has logged the attempts and sleeps so far. *)
Lemma retry_loop_transient self todo a last log j :
  max_retries strategy = Z.of_nat (a + todo) ->
  (j < todo)%nat ->
  (forall k, (k < j)%nat -> transient self k) ->
  exists last',
    retry_loop url strategy todo (Z.of_nat a) self last log
    = retry_loop url strategy (todo - j) (Z.of_nat (a + j))
                 (after_calls self j) last' (log ++ backoff self a j)
    /\ (j = 0%nat -> last' = last)
    /\ (forall j', j = S j' -> exists e, outcome self j' = Raises e /\ last' = Some e).
Proof.
  intros Hmax. induction j as [|j IH]; intros Hj Htr.
  - exists last. rewrite Nat.sub_0_r, Nat.add_0_r, after_calls_0.
    unfold backoff. simpl. rewrite app_nil_r.
    split; [reflexivity|]. split; [intros _; reflexivity | intros j' Hj'; discriminate].
  - destruct IH as (last' & Heq & _ & _); [lia | intros; apply Htr; lia |].
    destruct (Htr j) as (e & He & Hperm); [lia|].
    exists (Some e). split; [|split; [discriminate|]].
    + rewrite Heq.
      replace (todo - j)%nat with (S (todo - S j)) by lia.
      cbn [retry_loop]. rewrite crawl_after_calls, He, Hperm.
      replace (Z.of_nat (a + j) <? max_retries strategy - 1) with true
        by (symmetry; apply Z.ltb_lt; lia).
      rewrite backoff_snoc.
      replace (Z.of_nat (a + j) + 1) with (Z.of_nat (a + S j)) by lia.
      rewrite <- !app_assoc. reflexivity.
    + intros j' [= <-]. exists e. split; [exact He | reflexivity].
Qed.

(** What attempt [j] does once the earlier ones have failed transiently. *)
Lemma retry_loop_at self j :
  (j < Z.to_nat (max_retries strategy))%nat ->
  (forall k, (k < j)%nat -> transient self k) ->
  let n := Z.to_nat (max_retries strategy) in
  let self1 := after_calls self (S j) in
  (forall r dt, outcome self j = Returns r dt ->
     retry_loop url strategy n 0 self None []
     = (Returned r, _update_stats self1 true dt, schedule self j)) /\
  (forall e, permanent self j e ->
     retry_loop url strategy n 0 self None []
     = (Fell_through (Some e), self1, schedule self j)) /\
  (forall e, outcome self j = Raises e -> is_permanent (str_lower e) = false ->
     S j = n ->
     retry_loop url strategy n 0 self None []
     = (Fell_through (Some e), self1, schedule self j)).
Proof.
  intros Hj Htr n self1.
  assert (Hmax : max_retries strategy = Z.of_nat (0 + n)) by (subst n; lia).
  destruct (retry_loop_transient self n 0 None [] j Hmax Hj Htr)
    as (last' & Heq & _ & _).
  change (Z.of_nat 0) with 0 in Heq. simpl in Heq.
  assert (Htodo : (n - j)%nat = S (n - S j)) by (subst n; lia).
  rewrite Htodo in Heq. cbn [retry_loop] in Heq.
  rewrite crawl_after_calls in Heq. unfold schedule.
  repeat split.
  - intros r dt Hr. rewrite Hr in Heq. exact Heq.
  - intros e [He Hp]. rewrite He, Hp in Heq. exact Heq.
  - intros e He Hp Hlast. rewrite He, Hp in Heq.
    replace (Z.of_nat j <? max_retries strategy - 1) with false in Heq
      by (symmetry; apply Z.ltb_ge; subst n; lia).
    replace (n - S j)%nat with 0%nat in Heq by lia.
    exact Heq.
Qed.


End retry_policy.

Section retry_claims.
Import base.
Context `{Unicode}.
Variables (now : Z) (url : pystr) (strategy : CrawlStrategy).








(** C9. When the call of [crawl] returns a result without raising (in
    particular a result whose status is failed), [crawl_with_retry]
    returns that very result after exactly one attempt and without a
    sleep, whatever the error text of the result says, and the running
    statistics count the call as a successful request. *)
Theorem crawl_with_retry_returned_result (self : BaseCrawler)
    (r : CrawlResult) (dt : Q) :
  1 <= max_retries strategy ->
  outcome url strategy self 0 = Returns r dt ->
  exists self',
    crawl_with_retry now self url strategy
    = (Ret r, self', [EvCrawl (name self) 0]) /\
    calls self' = S (calls self) /\
    total_requests (stats self') = total_requests (stats self) + 1 /\
    successful_requests (stats self') = successful_requests (stats self) + 1 /\
    failed_requests (stats self') = failed_requests (stats self).
Proof.
  intros Hmax Hr.
  assert (H0 : (0 < Z.to_nat (max_retries strategy))%nat) by lia.
  destruct (retry_loop_at url strategy self 0%nat H0) as (Hret & _ & _);
    [intros k Hk; lia|].
  exists (_update_stats (after_calls self 1) true dt).
  unfold crawl_with_retry. rewrite (Hret r dt Hr).
  split; [reflexivity|]. simpl.
  repeat split; try reflexivity. lia.
Qed.

End retry_claims.

(** An adapter whose every call raises the given message. *)
Definition always_raising (nm msg : pystr) : base.BaseCrawler :=
  {| base.name := nm; base.stats := base.Stats_init; base.calls := 0;
     base.behaviour := fun _ _ _ => base.Raises msg |}.

(** An adapter whose every call returns the given result at once. *)
Definition always_returning (nm : pystr) (r : base.CrawlResult) : base.BaseCrawler :=
  {| base.name := nm; base.stats := base.Stats_init; base.calls := 0;
     base.behaviour := fun _ _ _ => base.Returns r 0 |}.

Definition a_failed_result : base.CrawlResult :=
  {| base.url := py "https://example.com"; base.title := []; base.text := [];
     base.hierarchy := ∅; base.metadata := ∅; base.status := py "failed";
     base.timestamp := 0; base.error := Some (py "HTTP 404: Not Found") |}.


Lemma crawl_with_retry_returned_result_witness :
  1 <= base.max_retries (base.CrawlStrategy_default [py "requests"]) /\
  exists self',
    base.crawl_with_retry (H := ascii_unicode) 0
      (always_returning (py "requests") a_failed_result)
      (py "https://example.com") (base.CrawlStrategy_default [py "requests"])
    = (Ret a_failed_result, self', [base.EvCrawl (py "requests") 0]) /\
    base.successful_requests (base.stats self') = 1.
Proof.
  assert (Hmax : 1 <= base.max_retries (base.CrawlStrategy_default [py "requests"]))
    by (simpl; lia).
  split; [exact Hmax|].
  destruct (crawl_with_retry_returned_result (H := ascii_unicode) 0
              (py "https://example.com")
              (base.CrawlStrategy_default [py "requests"])
              (always_returning (py "requests") a_failed_result)
              a_failed_result 0 Hmax eq_refl)
    as (self' & Hrun & _ & _ & Hsucc & _).
  exists self'. split; [exact Hrun | exact Hsucc].
Defined.

(** ** requests_engine.py: the chunked read *)

Section chunked_read.
Import base requests_engine.

(** A chunk that passes both checks of the loop body: the total-time
    check, and the gap check, which compares two clock readings taken
    within the same iteration. *)
Definition passes (activity_timeout max_total_time : Z) (start_time : Q)
    (ev : chunk_event) : Prop :=
  chunk ev <> [] /\
  Qgtb (t_total_check ev - start_time) (inject_Z max_total_time) = false /\
  Qgtb (t_gap_check ev - t_received ev) (inject_Z activity_timeout) = false.

(** The loop reads on through every chunk that passes the checks of its
    own iteration; the time that went by since the chunk before it is
    not looked at. *)
Lemma read_loop_reads_on activity_timeout max_total_time start_time
    (chunks : list chunk_event) fin acc :
  Forall (passes activity_timeout max_total_time start_time) chunks ->
  read_loop activity_timeout max_total_time start_time chunks fin acc
  = read_loop activity_timeout max_total_time start_time [] fin
              (acc ++ map chunk chunks).
Proof.
  intros Hall. revert acc.
  induction Hall as [|ev chunks (Hne & Htot & Hgap) _ IH]; intros acc.
  - simpl. rewrite app_nil_r. reflexivity.
  - cbn [read_loop]. destruct (chunk ev) as [|b bs] eqn:E; [congruence|].
    rewrite Htot, Hgap, IH. cbn [map]. rewrite E, <- app_assoc. reflexivity.
Qed.

(** One kilobyte of body, delivered at the time given, with a loop body
    that takes no time. *)
Definition kilobyte (t : Q) : chunk_event :=
  {| chunk := repeat 97%N 1024; t_received := t;
     t_total_check := t; t_gap_check := t |}.

(** C2 (the code does not do what the claim says). With
    [activity_timeout = 2] and [max_total_time = 60]: two chunks that
    arrive ten seconds apart are both read and returned, so the silence of
    ten seconds does not stop the read; when the server sends one chunk
    and then stalls, the read does not return by itself; and when the
    transport gives up after 30 seconds, the read returns the partial
    buffer then, not within 2 to 4 seconds. *)
Theorem read_does_not_stop_on_silence :
  _read_response_with_activity_timeout
    [kilobyte 0; kilobyte 10] (EndOfBody 10) 2 60 0
  = ReadReturns (repeat 97%N 2048) 10 /\
  _read_response_with_activity_timeout [kilobyte 0] Stalls 2 60 0 = ReadHangs /\
  _read_response_with_activity_timeout
    [kilobyte 0] (ReadError TimeoutError 30) 2 60 0
  = ReadReturns (repeat 97%N 1024) 30.
Proof. repeat split; vm_compute; reflexivity. Qed.

End chunked_read.

(** ** multi_engine.py: the strategy of the automatic path *)

Section automatic_strategy.
Import base multi_engine.
Context `{Unicode}.

(** [get_strategy_config] holds the time-outs per site type. *)
Lemma get_strategy_config_timeout (engines : registry) :
  timeout (get_strategy_config engines (py "complex_spa")) = 60 /\
  timeout (get_strategy_config engines (py "anti_bot_heavy")) = 60 /\
  timeout (get_strategy_config engines (py "ai_analysis_needed")) = 45 /\
  timeout (get_strategy_config engines (py "standard_dynamic")) = 40 /\
  timeout (get_strategy_config engines (py "simple_static")) = 30.
Proof. repeat split; reflexivity. Qed.

Lemma strategy_of_analysis_timeout (engines : registry) (a : analysis) :
  timeout (strategy_of_analysis engines a) = 30.
Proof. reflexivity. Qed.

End automatic_strategy.

(** A site analysis that selects the site type [complex_spa]. *)
Definition spa_analysis : multi_engine.analysis :=
  {| multi_engine.analysis_url := py "https://react.dev";
     multi_engine.crawling_strategy :=
       Some {| multi_engine.recommended_engine := Some (py "crawl4ai");
               multi_engine.fallback_engines :=
                 Some [py "firecrawl"; py "playwright"; py "requests"];
               multi_engine.strategy_type := Some (py "complex_spa") |};
     multi_engine.is_fallback := false;
     multi_engine.analysis_status := None;
     multi_engine.analysis_error := None |}.

(** C6 (the code does not do what the claim says). In the automatic
    path the strategy is built by [strategy_of_analysis], whose time-out
    is 30 seconds whatever the analysis selected: for a site analysed as
    [complex_spa], and also when the analysis service fails and the
    fall-back heuristic selects [complex_spa] for [https://react.dev],
    the time-out is 30, while [get_strategy_config], which holds the
    time-out of 60 seconds for that type, is not consulted. *)
Theorem automatic_strategy_timeout_is_30 :
  forall (U : Unicode) (engines : multi_engine.registry),
    base.timeout
      (multi_engine.strategy_of_analysis engines
         (multi_engine.analyze_site_and_get_strategy (H := U)
            (fun _ => multi_engine.McpReturns spa_analysis)
            (py "https://react.dev"))) = 30 /\
    multi_engine.strategy_type
      <$> multi_engine.crawling_strategy
            (multi_engine.analyze_site_and_get_strategy (H := ascii_unicode)
               (fun _ => multi_engine.McpRaises (py "connection failed"))
               (py "https://react.dev"))
    = Some (Some (py "complex_spa")) /\
    base.timeout
      (multi_engine.strategy_of_analysis engines
         (multi_engine.analyze_site_and_get_strategy (H := ascii_unicode)
            (fun _ => multi_engine.McpRaises (py "connection failed"))
            (py "https://react.dev"))) = 30 /\
    base.timeout
      (multi_engine.get_strategy_config engines (py "complex_spa")) = 60.
Proof.
  intros U engines. repeat split; reflexivity.
Qed.

(** ** multi_engine.py: the engine loop *)

Lemma str_eqb_eq (a b : pystr) : str_eqb a b = true <-> a = b.
Proof. unfold str_eqb. apply bool_decide_eq_true. Qed.

Lemma filter_id_iff {A} (f : A -> bool) (l : list A) :
  List.filter f l = l <-> Forall (fun x => f x = true) l.
Proof.
  split.
  - intros E. apply List.Forall_forall. intros x Hx. rewrite <- E in Hx.
    apply filter_In in Hx. apply Hx.
  - induction 1 as [|x l Hx _ IH]; simpl; [reflexivity|].
    rewrite Hx, IH. reflexivity.
Qed.

Section engine_loop.
Import base multi_engine.
Context `{Unicode}.
Variable urlparse : pystr -> pyres (pystr * pystr).
Variable mcp : pystr -> mcp_outcome.
Variable execution_time : pystr -> Q.
Variable format_seconds : Q -> pystr.
Variable quality_entries : CrawlResult -> pystr -> list (pystr * pyval).
Variable analysis_value : analysis -> pyval.
Variable explanation : analysis -> pystr -> list pystr -> pyval.

Abbreviation loop := (engine_loop execution_time format_seconds quality_entries
                              analysis_value explanation).
Abbreviation run := (crawl_with_strategy urlparse mcp execution_time format_seconds
                                     quality_entries analysis_value explanation).

Lemma annotate_frame a url strategy nm i att r :
  let r' := annotate execution_time format_seconds quality_entries
                     analysis_value explanation a url strategy nm i att r in
  base.url r' = base.url r /\ title r' = title r /\ text r' = text r /\
  hierarchy r' = hierarchy r /\ status r' = status r /\
  timestamp r' = timestamp r /\ error r' = error r.
Proof. unfold annotate. destruct a; repeat split; reflexivity. Qed.

(** When every engine fails, the names recorded are those that were
    already recorded followed by the whole list still to be tried. *)
Lemma engine_loop_all_failed now a url strategy todo :
  forall i engines att last log att' last' engines' log',
    loop now a url strategy todo i engines att last log
    = (All_failed att' last', engines', log') ->
    att' = att ++ todo.
Proof.
  induction todo as [|nm todo IH]; intros i engines att last log att' last' engines' log' E.
  - simpl in E. injection E as <- _ _ _. rewrite app_nil_r. reflexivity.
  - cbn [engine_loop] in E.
    destruct (get nm engines) as [engine|].
    + destruct (crawl_with_retry now engine url strategy) as [[[result|e] engine'] evs].
      * destruct (str_eqb (status result) (py "complete")); [discriminate|].
        apply IH in E. rewrite E, <- app_assoc. reflexivity.
      * apply IH in E. rewrite E, <- app_assoc. reflexivity.
    + apply IH in E. rewrite E, <- app_assoc. reflexivity.
Qed.

(** A name that is not registered is recorded and passed over: no engine
    is called for it. *)
Lemma engine_loop_skips now a url strategy nm todo i engines att last log :
  get nm engines = None ->
  loop now a url strategy (nm :: todo) i engines att last log
  = loop now a url strategy todo (i + 1) engines (att ++ [nm]) last log.
Proof. intros E. cbn [engine_loop]. rewrite E. reflexivity. Qed.

(** The result of a successful engine is complete. *)
Lemma engine_loop_succeeded now a url strategy todo :
  forall i engines att last log r engines' log',
    loop now a url strategy todo i engines att last log
    = (Succeeded r, engines', log') ->
    status r = py "complete".
Proof.
  induction todo as [|nm todo IH]; intros i engines att last log r engines' log' E.
  - discriminate.
  - cbn [engine_loop] in E.
    destruct (get nm engines) as [engine|]; [|eapply IH; exact E].
    destruct (crawl_with_retry now engine url strategy) as [[[result|e] engine'] evs];
      [|eapply IH; exact E].
    destruct (str_eqb (status result) (py "complete")) eqn:S; [|eapply IH; exact E].
    injection E as <- _ _. apply str_eqb_eq in S.
    rewrite <- S. apply annotate_frame.
Qed.

Lemma has_key_keys (engines : registry) :
  Forall (fun n => has_key n engines = true) (keys engines).
Proof.
  apply List.Forall_forall. intros n Hn. unfold keys in Hn.
  induction engines as [|[k v] engines IH]; simpl in Hn; [destruct Hn|].
  unfold has_key. simpl. destruct (str_eqb n k) eqn:E; [reflexivity|].
  destruct Hn as [Hk|Hn].
  - subst k. rewrite (proj2 (str_eqb_eq n n) eq_refl) in E. discriminate.
  - apply IH in Hn. exact Hn.
Qed.

(** The automatic path only lists registered engines. *)
Lemma strategy_of_analysis_registered (engines : registry) (a : analysis) :
  Forall (fun n => has_key n engines = true)
         (engine_priority (strategy_of_analysis engines a)).
Proof.
  unfold strategy_of_analysis. cbn [engine_priority].
  match goal with
  | |- Forall _ (match ?l with [] => _ | _ :: _ => _ end) =>
      assert (Hf : Forall (fun n => has_key n engines = true) l);
      [|destruct l; [apply has_key_keys | exact Hf]]
  end.
  apply List.Forall_forall. intros n Hn. apply filter_In in Hn. apply Hn.
Qed.

(** The strategy that a call of [crawl_with_strategy] works with. *)
Definition strategy_in_use (engines : registry) (url : pystr)
    (custom_strategy : option CrawlStrategy) : CrawlStrategy :=
  match custom_strategy with
  | Some s => s
  | None => strategy_of_analysis engines (analyze_site_and_get_strategy mcp url)
  end.

Definition registered (engines : registry) (names : list pystr) : list pystr :=
  List.filter (fun n => has_key n engines) names.

(** C3, as amended. When [crawl_with_strategy] returns a failed result
    after the engine loop (the URL passed the validation), the entry
    [attempted_engines] of its metadata is the whole list
    [strategy.engine_priority], in order: every name is recorded before
    the registry is consulted, so a name that is not registered is in the
    list although no engine is called for it. The entry equals the part
    of [engine_priority] that is registered exactly when every name of
    [engine_priority] is registered, which is the case whenever the
    strategy comes from the automatic path. *)
Theorem attempted_engines_is_engine_priority
    now engines url custom_strategy r engines' log :
  run now true engines url custom_strategy = (Ret r, engines', log) ->
  fst (_validate_url urlparse url) = true ->
  status r = py "failed" ->
  let strategy := strategy_in_use engines url custom_strategy in
  metadata r !! py "attempted_engines"
    = Some (VStrList (engine_priority strategy)) /\
  (metadata r !! py "attempted_engines"
     = Some (VStrList (registered engines (engine_priority strategy)))
   <-> Forall (fun n => has_key n engines = true) (engine_priority strategy)) /\
  (custom_strategy = None ->
   Forall (fun n => has_key n engines = true) (engine_priority strategy)).
Proof.
  intros Hrun Hvalid Hfailed strategy.
  assert (Hatt : metadata r !! py "attempted_engines"
                 = Some (VStrList (engine_priority strategy))).
  { unfold crawl_with_strategy in Hrun. cbn [negb] in Hrun.
    destruct (_validate_url urlparse url) as [is_valid msg].
    simpl in Hvalid. subst is_valid. cbn [negb] in Hrun.
    assert (Hloop : match loop now
                      (match custom_strategy with
                       | Some _ => None
                       | None => Some (analyze_site_and_get_strategy mcp url) end)
                      url strategy (engine_priority strategy) 1 engines [] None []
                    with
                    | (Succeeded result, e', l) => (Ret result, e', l)
                    | (All_failed att last, e', l) =>
                        (Ret {| base.url := url; title := []; text := [];
                                hierarchy := ∅;
                                metadata :=
                                  list_to_map
                                    [ (py "attempted_engines", VStrList att);
                                      (py "total_available_engines",
                                         VInt (Z.of_nat (length (engine_priority strategy))));
                                      (py "final_error", VStr (str_of_option last));
                                      (py "all_engines_failed", VBool true) ];
                                status := py "failed"; timestamp := now;
                                error := Some (py "모든 엔진 실패: " ++ str_of_option last) |},
                         e', l)
                    end = (Ret r, engines', log)).
    { subst strategy. unfold strategy_in_use.
      destruct custom_strategy; exact Hrun. }
    clear Hrun.
    destruct (loop now _ url strategy (engine_priority strategy) 1 engines [] None [])
      as [[[result|att last] e'] l] eqn:E.
    - injection Hloop as <- _ _. apply engine_loop_succeeded in E.
      rewrite E in Hfailed. vm_compute in Hfailed. discriminate.
    - injection Hloop as <- _ _. apply engine_loop_all_failed in E.
      subst att. cbn [metadata list_to_map foldr fst snd app].
      apply lookup_insert_eq. }
  split; [exact Hatt|]. split.
  - rewrite Hatt. split.
    + intros [= E]. apply filter_id_iff. symmetry. exact E.
    + intros Hall. unfold registered.
      rewrite (proj2 (filter_id_iff _ _) Hall). reflexivity.
  - intros ->. apply strategy_of_analysis_registered.
Qed.

End engine_loop.

(** A run of the orchestrator: the registry holds the HTTP engine only,
    every call of which raises [HTTP 404 Not Found], and the caller's
    strategy also names an engine that is not registered. *)
Module example_run.
Import base multi_engine.

Definition urlparse (u : pystr) : pyres (pystr * pystr) :=
  Ret (py "https", py "example.com").
Definition mcp (u : pystr) : mcp_outcome := McpRaises (py "connection failed").
Definition engines : registry :=
  [ (py "requests", always_raising (py "requests") (py "HTTP 404 Not Found")) ].
Definition strategy : CrawlStrategy :=
  CrawlStrategy_default [py "ghost"; py "requests"].

Definition run :=
  crawl_with_strategy (H := ascii_unicode) urlparse mcp
    (fun _ => 0%Q) (fun _ => py "0.00s") (fun _ _ => [])
    (fun _ => VNone) (fun _ _ _ => VNone)
    0 true engines (py "https://example.com") (Some strategy).

Definition result : CrawlResult :=
  match run with
  | (Ret r, _, _) => r
  | (Exc _, _, _) => a_failed_result
  end.

End example_run.

(** The claim C3 fails on this run: the name that is not registered is
    in [attempted_engines]. *)
Lemma attempted_engines_counterexample :
  example_run.run
  = (Ret example_run.result, snd (fst example_run.run), snd example_run.run) /\
  base.status example_run.result = py "failed" /\
  base.metadata example_run.result !! py "attempted_engines"
  = Some (VStrList [py "ghost"; py "requests"]) /\
  registered example_run.engines
             (base.engine_priority example_run.strategy) = [py "requests"] /\
  base.metadata example_run.result !! py "attempted_engines"
  <> Some (VStrList (registered example_run.engines
                       (base.engine_priority example_run.strategy))).
Proof.
  assert (E : base.metadata example_run.result !! py "attempted_engines"
              = Some (VStrList [py "ghost"; py "requests"]))
    by (vm_compute; reflexivity).
  split; [vm_compute; reflexivity|].
  split; [vm_compute; reflexivity|].
  split; [exact E|].
  split; [vm_compute; reflexivity|].
  rewrite E. vm_compute. discriminate.
Qed.

Lemma attempted_engines_is_engine_priority_witness :
  base.metadata example_run.result !! py "attempted_engines"
  = Some (VStrList [py "ghost"; py "requests"]).
Proof.
  refine (proj1 (attempted_engines_is_engine_priority (H := ascii_unicode)
            example_run.urlparse example_run.mcp
            (fun _ => 0%Q) (fun _ => py "0.00s") (fun _ _ => [])
            (fun _ => VNone) (fun _ _ _ => VNone)
            0 example_run.engines (py "https://example.com")
            (Some example_run.strategy) example_run.result
            (snd (fst example_run.run)) (snd example_run.run) _ _ _)).
  - vm_compute. reflexivity.
  - vm_compute. reflexivity.
  - vm_compute. reflexivity.
Defined.

(** ** The shape of the results *)

Section result_shape.
Import base.
Context `{Unicode}.












End result_shape.

Section orchestrator_shape.
Import base multi_engine.
Context `{Unicode}.
Variable urlparse : pystr -> pyres (pystr * pystr).
Variable mcp : pystr -> mcp_outcome.
Variable execution_time : pystr -> Q.
Variable format_seconds : Q -> pystr.
Variable quality_entries : CrawlResult -> pystr -> list (pystr * pyval).
Variable analysis_value : analysis -> pyval.
Variable explanation : analysis -> pystr -> list pystr -> pyval.






End orchestrator_shape.



(** ** routes.py: the job ids of bulk jobs *)

Section job_ids.
Import routes.
Open Scope N_scope.












Close Scope N_scope.


End job_ids.

(** Two bulk requests within one second. *)
Module same_second_requests.
Import routes.



End same_second_requests.


